(** * main.py: a FastAPI application with two root handlers

    The program under verification is

<<
    app = FastAPI()

    @app.get("/")
    def read_root():
        return {"method": "GET", "message": "Hello from GET!"}

    @app.post("/")
    def create_root():
        return {"method": "POST", "message": "Hello from POST!"}
>>

    The development embeds the module body and the two handlers as
    computations in a state-and-exception monad over the module's
    namespace, together with the part of the framework that decides what
    a request gets back: route registration, route matching, the router's
    dispatch loop, the exception handlers and the two attributes the
    application object memoises while it serves. *)

From Stdlib Require Import ZArith Ascii String List.
From stdpp Require Import base tactics option list strings gmap.

Set Warnings "-register-all".

Local Open Scope string_scope.
Local Open Scope Z_scope.

(** ** Python values *)

Module Py.

(** The values the program builds and the framework serialises: [None],
    strings, lists and dictionaries.  A dictionary keeps its keys in insertion
    order, so it is an association list without repeated keys. *)
Inductive Value : Type :=
  | NoneValue
  | Str (s : string)
  | List (items : list Value)
  | Dict (items : list (string * Value)).

(** [d[k] = v]: an existing key keeps its position, a new key goes last. *)
Fixpoint dict_setitem (d : list (string * Value)) (k : string) (v : Value)
  : list (string * Value) :=
  match d with
  | [] => [(k, v)]
  | (k', v') :: d' =>
      if decide (k' = k) then (k', v) :: d'
      else (k', v') :: dict_setitem d' k v
  end.

(** A dictionary display [{k1: v1, ..., kn: vn}] stores its items from
    left to right into a fresh dictionary. *)
Definition dict_display (items : list (string * Value)) : Value :=
  Dict (foldl (fun d kv => dict_setitem d kv.1 kv.2) [] items).

Definition dict_keys (v : Value) : list string :=
  match v with
  | Dict items => items.*1
  | _ => []
  end.

Fixpoint dict_get (d : list (string * Value)) (k : string) : option Value :=
  match d with
  | [] => None
  | (k', v) :: d' => if decide (k' = k) then Some v else dict_get d' k
  end.

Definition getitem (v : Value) (k : string) : option Value :=
  match v with
  | Dict items => dict_get items k
  | _ => None
  end.

(** [s.isascii()]. *)
Fixpoint isascii (s : string) : bool :=
  match s with
  | EmptyString => true
  | String c s' => (nat_of_ascii c <? 128)%nat && isascii s'
  end.

(** [s.upper()] for a string [s] with [s.isascii()]: the method names the
    program registers are such strings.  (On other strings [str.upper]
    also maps letters outside ASCII, which this function leaves as they
    are.) *)
Definition upper_ascii (c : ascii) : ascii :=
  let n := nat_of_ascii c in
  if ((97 <=? n) && (n <=? 122))%nat then ascii_of_nat (n - 32) else c.

Fixpoint upper (s : string) : string :=
  match s with
  | EmptyString => EmptyString
  | String c s' => String (upper_ascii c) (upper s')
  end.

(** [s.endswith("/")] and [s.rstrip("/")]. *)
Fixpoint endswith_slash (s : string) : bool :=
  match s with
  | EmptyString => false
  | String c EmptyString => bool_decide (c = "/"%char)
  | String _ s' => endswith_slash s'
  end.

Fixpoint rstrip_slash (s : string) : string :=
  match s with
  | EmptyString => EmptyString
  | String c s' =>
      match rstrip_slash s' with
      | EmptyString => if decide (c = "/"%char) then EmptyString else String c EmptyString
      | t => String c t
      end
  end.

(** [b.decode()] succeeds: the bytes are well-formed UTF-8, without
    overlong forms, surrogates or code points above U+10FFFF. *)
Definition between (lo hi : nat) (c : ascii) : bool :=
  let n := nat_of_ascii c in ((lo <=? n) && (n <=? hi))%nat.

Fixpoint utf8_valid (s : string) : bool :=
  match s with
  | EmptyString => true
  | String c0 s0 =>
      if between 0 127 c0 then utf8_valid s0
      else
        match s0 with
        | EmptyString => false
        | String c1 s1 =>
            if between 194 223 c0 then between 128 191 c1 && utf8_valid s1
            else
              match s1 with
              | EmptyString => false
              | String c2 s2 =>
                  if (between 224 224 c0 && between 160 191 c1
                      || between 225 236 c0 && between 128 191 c1
                      || between 237 237 c0 && between 128 159 c1
                      || between 238 239 c0 && between 128 191 c1)
                     && between 128 191 c2
                  then utf8_valid s2
                  else
                    match s2 with
                    | EmptyString => false
                    | String c3 s3 =>
                        (between 240 240 c0 && between 144 191 c1
                         || between 241 243 c0 && between 128 191 c1
                         || between 244 244 c0 && between 128 143 c1)
                        && between 128 191 c2 && between 128 191 c3
                        && utf8_valid s3
                    end
              end
        end
  end.

(** *** [json.dumps(v, ensure_ascii=False, separators=(",", ":"))]

    The renderer of the framework's JSON response.  Strings are byte
    strings holding UTF-8, so only the quote, the backslash and the
    control characters below 0x20 are escaped. *)

Definition dquote : ascii := "034"%char.
Definition backslash : ascii := "092"%char.

Definition hex_digit (n : nat) : ascii :=
  if (n <? 10)%nat then ascii_of_nat (48 + n) else ascii_of_nat (87 + n).

Definition escape_char (c : ascii) : string :=
  let n := nat_of_ascii c in
  if decide (c = dquote) then String backslash (String dquote EmptyString)
  else if decide (c = backslash) then String backslash (String backslash EmptyString)
  else if decide (n = 8%nat) then String backslash "b"
  else if decide (n = 9%nat) then String backslash "t"
  else if decide (n = 10%nat) then String backslash "n"
  else if decide (n = 12%nat) then String backslash "f"
  else if decide (n = 13%nat) then String backslash "r"
  else if (n <? 32)%nat then
    String backslash ("u00" ++ String (hex_digit (n / 16)) (String (hex_digit (n mod 16)) EmptyString))
  else String c EmptyString.

Fixpoint escape (s : string) : string :=
  match s with
  | EmptyString => EmptyString
  | String c s' => escape_char c ++ escape s'
  end.

Definition encode_basestring (s : string) : string :=
  String dquote (escape s ++ String dquote EmptyString).

Fixpoint dumps (v : Value) : string :=
  match v with
  | NoneValue => "null"
  | Str s => encode_basestring s
  | List items =>
      "[" ++
      (fix elements (l : list Value) : string :=
         match l with
         | [] => EmptyString
         | x :: l' =>
             match l' with
             | [] => dumps x
             | _ :: _ => dumps x ++ "," ++ elements l'
             end
         end) items ++ "]"
  | Dict items =>
      "{" ++
      (fix members (l : list (string * Value)) : string :=
         match l with
         | [] => EmptyString
         | (k, x) :: l' =>
             match l' with
             | [] => encode_basestring k ++ ":" ++ dumps x
             | _ :: _ => encode_basestring k ++ ":" ++ dumps x ++ "," ++ members l'
             end
         end) items ++ "}"
  end.

End Py.

(** ** The interpreter: objects, the module namespace, exceptions *)

Module Interp.

(** Function objects.  Functions are first order here: a function object
    is its name, and the framework's call site runs its body.  These are
    the two functions main.py defines. *)
Inductive Function : Type :=
  | fn_read_root
  | fn_create_root.

#[export] Instance Function_eq_dec : EqDecision Function.
Proof. solve_decision. Defined.

(** The pages and the schema document the application object serves on
    its documentation routes, each from a closure of its own. *)
Inductive Document : Type := OpenAPISchema | SwaggerUI | OAuth2Redirect | ReDoc.

(** What a route hands a request to: an [APIRoute] runs a function of
    the program through the framework's request handler, a plain [Route]
    calls a closure of the framework that returns the response. *)
Inductive Endpoint : Type :=
  | APIRoute (f : Function)
  | PlainRoute (d : Document).

Record Route : Type := mkRoute {
  path : string;
  methods : gset string;
  endpoint : Endpoint
}.

(** The objects a module-level name can be bound to: the class the
    import brings in, an application object, a function, and a plain
    value.  An application object is here its routing table, the part of
    it that the program writes and that decides every response; the two
    attributes the framework memoises in the object while it serves are
    kept beside the namespace, in [Memo] below. *)
Inductive Object : Type :=
  | FastAPIClass
  | Application (routes : list Route)
  | FunctionObject (f : Function)
  | ValueObject (v : Py.Value).



(** The namespace of module main.  Every object of the program has exactly
    one name, so an object lives in the namespace under that name and
    mutating it rebinds the name. *)
Definition Namespace : Type := gmap string Object.

Inductive Exception : Type :=
  | NameError (name : string)
  | TypeError (msg : string)
  | AttributeError (msg : string)
  | UnicodeDecodeError
  | AssertionError (msg : string)
  | HTTPException (status_code : Z) (detail : string)
  | RequestValidationError (errors : list Py.Value).

Inductive Outcome (A : Type) : Type :=
  | Returned (a : A)
  | Raised (e : Exception).
Arguments Returned {A} a.
Arguments Raised {A} e.

(** A computation reads and writes the namespace and returns or raises. *)
Definition M (A : Type) : Type := Namespace -> Outcome A * Namespace.

#[export] Instance M_ret : MRet M := fun A (a : A) ns => (Returned a, ns).

#[export] Instance M_bind : MBind M := fun A B (f : A -> M B) (m : M A) ns =>
  match m ns with
  | (Returned a, ns') => f a ns'
  | (Raised e, ns') => (Raised e, ns')
  end.

Definition raise {A : Type} (e : Exception) : M A := fun ns => (Raised e, ns).

Definition load_name (name : string) : M Object := fun ns =>
  match ns !! name with
  | Some o => (Returned o, ns)
  | None => (Raised (NameError name), ns)
  end.

Definition store_name (name : string) (o : Object) : M unit := fun ns =>
  (Returned tt, <[name := o]> ns).

Definition assert (b : bool) (msg : string) : M unit :=
  if b then mret tt else raise (AssertionError msg).

End Interp.
Import Interp.

(** ** Requests and responses *)

(** A request as the framework's request object presents it:
    [query_string] is the raw bytes after the question mark,
    [query_params] what the framework parses out of them. *)
Record Request : Type := mkRequest {
  method : string;
  url_path : string;
  query_string : string;
  query_params : list (string * string);
  headers : list (string * string);
  body : string
}.

Inductive Content : Type :=
  | JSON (v : Py.Value)
  | Text (s : string)
  | Generated (d : Document)  (* the text of these plays no part below *)
  | Empty.

(** A response is its status code and its content; response headers play
    no part below and are left out. *)
Record Response : Type := mkResponse {
  status_code : Z;
  content : Content
}.

(** The bytes of a response body, where the model has them. *)
Definition render (c : Content) : option string :=
  match c with
  | JSON v => Some (Py.dumps v)
  | Text s => Some s
  | Generated _ => None
  | Empty => Some EmptyString
  end.

(** [JSONResponse(content, status_code)],
    [PlainTextResponse(content, status_code)] and [RedirectResponse(url)],
    the last with its default status, 307, and an empty body; the URL,
    which the router must build first, goes into a header. *)
Definition JSONResponse (v : Py.Value) (status : Z) : Response := mkResponse status (JSON v).
Definition PlainTextResponse (s : string) (status : Z) : Response := mkResponse status (Text s).
Definition RedirectResponse : Response := mkResponse 307 Empty.

Definition is_2xx (status : Z) : bool := (200 <=? status) && (status <? 300).

(** ** Routing (the framework's [Route] and [Router]) *)

Module Routing.

Inductive Match : Type := NONE | PARTIAL | FULL.

Definition newline : ascii := "010"%char.

(** A path without parameters compiles to the regular expression
    [^path$], which the router applies with [re.match]: it accepts the
    path itself and, [$] being what it is, the path followed by one line
    feed. *)
Definition path_regex_match (pattern p : string) : bool :=
  bool_decide (p = pattern) || bool_decide (p = pattern ++ String newline EmptyString).

(** [Route.matches(scope)]: the path decides between no match and a
    match, the method between a partial and a full one. *)
Definition matches (r : Route) (m p : string) : Match :=
  if path_regex_match (path r) p then
    if bool_decide (methods r ≠ ∅) && negb (bool_decide (m ∈ methods r))
    then PARTIAL else FULL
  else NONE.

(** [Route(path, endpoint, methods=None)]: a function endpoint serves GET
    unless told otherwise, and a route that serves GET serves HEAD too. *)
Definition new_Route (p : string) (d : Document) (ms : option (list string)) : M Route :=
  assert (String.prefix "/" p) "Routed paths must start with '/'";;
  let ms := default ["GET"] ms in
  let set : gset string := list_to_set (Py.upper <$> ms) in
  let set := if bool_decide ("GET" ∈ set) then set ∪ {["HEAD"]} else set in
  mret (mkRoute p set (PlainRoute d)).

(** The loop of [Router.app]: the first full match wins; failing that,
    the first partial match is remembered. *)
Fixpoint find_route (routes : list Route) (m p : string) (partial : option Route)
  : Route + option Route :=
  match routes with
  | [] => inr partial
  | r :: rest =>
      match matches r m p with
      | FULL => inl r
      | PARTIAL => find_route rest m p (if partial is Some _ then partial else Some r)
      | NONE => find_route rest m p partial
      end
  end.

(** The path the router tries when nothing matched: without its trailing
    slashes, or with one added. *)
Definition redirect_path (p : string) : string :=
  if Py.endswith_slash p then Py.rstrip_slash p else p ++ "/".

Definition redirect_matches (routes : list Route) (m p : string) : bool :=
  existsb (fun r => if matches r m (redirect_path p) is NONE then false else true) routes.

End Routing.
Import Routing.

(** ** The application object (the framework's [FastAPI] class) *)

Module Framework.

(** [APIRoute(path, endpoint, methods=methods)]: the methods are taken as
    given, HEAD is not added. *)
Definition new_APIRoute (p : string) (f : Function) (ms : list string) : M Route :=
  mret (mkRoute p (list_to_set (Py.upper <$> ms)) (APIRoute f)).

(** [FastAPI.setup()]: one plain route for each documentation URL that
    is configured. *)
Definition setup (openapi_url docs_url redoc_url swagger_ui_oauth2_redirect_url : option string)
  : M (list Route) :=
  r1 ← (match openapi_url with
        | Some u => r ← new_Route u OpenAPISchema None; mret [r]
        | None => mret []
        end : M (list Route));
  r2 ← (match openapi_url, docs_url with
        | Some _, Some u =>
            r ← new_Route u SwaggerUI None;
            match swagger_ui_oauth2_redirect_url with
            | Some v => r' ← new_Route v OAuth2Redirect None; mret [r; r']
            | None => mret [r]
            end
        | _, _ => mret []
        end : M (list Route));
  r3 ← (match openapi_url, redoc_url with
        | Some _, Some u => r ← new_Route u ReDoc None; mret [r]
        | _, _ => mret []
        end : M (list Route));
  mret (r1 ++ r2 ++ r3)%list.

(** [FastAPI()]: every argument at its default. *)
Definition FastAPI : M Object :=
  routes ← setup (Some "/openapi.json") (Some "/docs") (Some "/redoc")
                 (Some "/docs/oauth2-redirect");
  mret (Application routes).

(** [app.api_route(path, methods=ms)(func)], the decorator behind
    [app.get] and [app.post]: it appends an [APIRoute] to the table of the
    application bound to [app] and returns the function.  Bound to
    anything else, [app] has no such method to call. *)
Definition api_route (p : string) (ms : list string) (f : Function) : M Object :=
  a ← load_name "app";
  match a with
  | Application routes =>
      r ← new_APIRoute p f ms;
      store_name "app" (Application (routes ++ [r])%list);;
      mret (FunctionObject f)
  | FastAPIClass => raise (TypeError "missing 1 required positional argument: 'path'")
  | FunctionObject _ => raise (AttributeError "'function' object has no attribute")
  | ValueObject _ => raise (AttributeError "object has no attribute")
  end.

(** [app.get(path)(func)] and [app.post(path)(func)].  (A dictionary has
    a [get] of its own, whose result cannot be called.) *)
Definition get (p : string) (f : Function) : M Object :=
  a ← load_name "app";
  match a with
  | ValueObject (Py.Dict _) => raise (TypeError "object is not callable")
  | _ => api_route p ["GET"] f
  end.

Definition post (p : string) : Function -> M Object := api_route p ["POST"].

(** [solve_dependencies]: each parameter of the endpoint is a required
    query parameter; the values found and the errors for those missing. *)
Definition missing (name : string) : Py.Value :=
  Py.Dict [("type", Py.Str "missing"); ("loc", Py.List [Py.Str "query"; Py.Str name]);
           ("msg", Py.Str "Field required"); ("input", Py.NoneValue)].

Fixpoint lookup_param (qs : list (string * string)) (name : string) : option string :=
  match qs with
  | [] => None
  | (k, v) :: qs' => if decide (k = name) then Some v else lookup_param qs' name
  end.

Fixpoint solve_dependencies (params : list string) (req : Request)
  : list (string * Py.Value) * list Py.Value :=
  match params with
  | [] => ([], [])
  | x :: params' =>
      let '(values, errors) := solve_dependencies params' req in
      match lookup_param (query_params req) x with
      | Some v => ((x, Py.Str v) :: values, errors)
      | None => (values, missing x :: errors)
      end
  end.

End Framework.

(** ** main.py *)

(** [def read_root(): return {"method": "GET", "message": "Hello from GET!"}] *)
Definition read_root : M Py.Value :=
  mret (Py.dict_display [("method", Py.Str "GET"); ("message", Py.Str "Hello from GET!")]).

(** [def create_root(): return {"method": "POST", "message": "Hello from POST!"}] *)
Definition create_root : M Py.Value :=
  mret (Py.dict_display [("method", Py.Str "POST"); ("message", Py.Str "Hello from POST!")]).

(** The formal parameters of the two functions: none. *)
Definition parameters (f : Function) : list string :=
  match f with
  | fn_read_root => []
  | fn_create_root => []
  end.

(** The HTTP method each function is registered under, as its decorator
    line has it. *)
Definition registered_method (f : Function) : string :=
  match f with
  | fn_read_root => "GET"
  | fn_create_root => "POST"
  end.

(** The name of each function, as its [def] line has it. *)
Definition function_name (f : Function) : string :=
  match f with
  | fn_read_root => "read_root"
  | fn_create_root => "create_root"
  end.

(** The call of a function with keyword arguments: neither function has
    a parameter, so any keyword argument is one too many. *)
Definition run_endpoint_function (f : Function) (values : list (string * Py.Value))
  : M Py.Value :=
  match values with
  | [] =>
      match f with
      | fn_read_root => read_root
      | fn_create_root => create_root
      end
  | (k, _) :: _ =>
      raise (TypeError (function_name f ++ "() got an unexpected keyword argument '"
                          ++ k ++ "'"))
  end.

(** The call [c()] of what a name is bound to. *)
Definition call_object (c : Object) : M Object :=
  match c with
  | FastAPIClass => Framework.FastAPI
  | Application _ => raise (TypeError "missing 3 required positional arguments")
  | FunctionObject f => v ← run_endpoint_function f []; mret (ValueObject v)
  | ValueObject _ => raise (TypeError "object is not callable")
  end.

(** The module body, statement by statement. *)
Definition main : M unit :=
  (* from fastapi import FastAPI *)
  store_name "FastAPI" FastAPIClass;;
  (* app = FastAPI() *)
  c ← load_name "FastAPI";
  a ← call_object c;
  store_name "app" a;;
  (* @app.get("/") def read_root(): ... *)
  f ← Framework.get "/" fn_read_root;
  store_name "read_root" f;;
  (* @app.post("/") def create_root(): ... *)
  g ← Framework.post "/" fn_create_root;
  store_name "create_root" g.

(** The namespace of the service once the module is loaded. *)
Definition service : Namespace := (main ∅).2.

(** ** Serving a request *)

(** [jsonable_encoder] leaves [None], strings, lists and dictionaries as
    they are. *)
Definition jsonable_encoder (v : Py.Value) : Py.Value := v.

(** The request handler of an [APIRoute] whose function declares no body
    parameter: the body is not read; the parameters are solved, the
    function is called and its return value becomes a JSON response with
    the default status. *)
Definition get_request_handler (f : Function) (req : Request) : M Response :=
  let '(values, errors) := Framework.solve_dependencies (parameters f) req in
  match errors with
  | [] =>
      raw_response ← run_endpoint_function f values;
      mret (JSONResponse (jsonable_encoder raw_response) 200)
  | _ :: _ => raise (RequestValidationError errors)
  end.

(** [Route.handle]: a method the route does not serve is refused, any
    other request goes to the route's endpoint. *)
Definition handle (r : Route) (req : Request) : M Response :=
  if bool_decide (methods r ≠ ∅) && negb (bool_decide (method req ∈ methods r))
  then raise (HTTPException 405 "Method Not Allowed")
  else
    match endpoint r with
    | APIRoute f => get_request_handler f req
    | PlainRoute d => mret (mkResponse 200 (Generated d))
    end.

(** [Router.app].  The redirect needs the URL of the request, and
    building it decodes the query string. *)
Definition router (routes : list Route) (req : Request) : M Response :=
  match find_route routes (method req) (url_path req) None with
  | inl r => handle r req
  | inr (Some r) => handle r req
  | inr None =>
      if bool_decide (url_path req ≠ "/")
         && redirect_matches routes (method req) (url_path req)
      then
        if Py.utf8_valid (query_string req) then mret RedirectResponse
        else raise UnicodeDecodeError
      else raise (HTTPException 404 "Not Found")
  end.

Definition is_body_allowed_for_status_code (status : Z) : bool :=
  negb ((status <? 200) || bool_decide (status ∈ [204; 205; 304])).

(** The exception handlers around the router: an [HTTPException] and a
    validation error become JSON responses, anything else the plain
    500 response. *)
Definition exception_handler (e : Exception) : Response :=
  match e with
  | HTTPException status detail =>
      if is_body_allowed_for_status_code status
      then JSONResponse (Py.Dict [("detail", Py.Str detail)]) status
      else mkResponse status Empty
  | RequestValidationError errors =>
      JSONResponse (Py.Dict [("detail", Py.List (jsonable_encoder <$> errors))]) 422
  | _ => PlainTextResponse "Internal Server Error" 500
  end.

(** The application called on a request. *)
Definition app (routes : list Route) (req : Request) : Namespace -> Response * Namespace :=
  fun ns =>
    match router routes req ns with
    | (Returned response, ns') => (response, ns')
    | (Raised e, ns') => (exception_handler e, ns')
    end.

(** The server passes each request to the application object that module
    main binds to [app]; there is no service without one.  This is the
    response and what becomes of the namespace; [application_call] below
    adds what becomes of the attributes the object memoises. *)
Definition serve (req : Request) (ns : Namespace) : option (Response * Namespace) :=
  match ns !! "app" with
  | Some (Application routes) => Some (app routes req ns)
  | _ => None
  end.

(** Requests served one after the other. *)
Fixpoint serve_all (reqs : list Request) (ns : Namespace)
  : option (list Response * Namespace) :=
  match reqs with
  | [] => Some ([], ns)
  | req :: reqs' =>
      match serve req ns with
      | Some (response, ns') =>
          match serve_all reqs' ns' with
          | Some (responses, ns'') => Some (response :: responses, ns'')
          | None => None
          end
      | None => None
      end
  end.

(** ** The application object called on a request

    [Starlette.__call__] builds the middleware stack if there is none
    yet and passes the request down to the router; the closure of the
    schema route generates the schema if there is none yet.  Neither
    attribute is read for anything else, so the response is the one
    [serve] gives. *)




(** ** Reference values

    The two payloads as the handlers' [return] lines write them, the
    routing table the loaded module ends up with, and the quoting of a
    string without characters to escape. *)

Definition get_payload : Py.Value :=
  Py.Dict [("method", Py.Str "GET"); ("message", Py.Str "Hello from GET!")].

Definition post_payload : Py.Value :=
  Py.Dict [("method", Py.Str "POST"); ("message", Py.Str "Hello from POST!")].

(** The routes of the application object bound to [app]. *)
Definition application_routes (ns : Namespace) : list Route :=
  match ns !! "app" with
  | Some (Application routes) => routes
  | _ => []
  end.

(** The table after [FastAPI()], [@app.get("/")] and [@app.post("/")]. *)
Definition routing_table : list Route :=
  [ mkRoute "/openapi.json" {["GET"; "HEAD"]} (PlainRoute OpenAPISchema);
    mkRoute "/docs" {["GET"; "HEAD"]} (PlainRoute SwaggerUI);
    mkRoute "/docs/oauth2-redirect" {["GET"; "HEAD"]} (PlainRoute OAuth2Redirect);
    mkRoute "/redoc" {["GET"; "HEAD"]} (PlainRoute ReDoc);
    mkRoute "/" {["GET"]} (APIRoute fn_read_root);
    mkRoute "/" {["POST"]} (APIRoute fn_create_root) ].

Definition quoted (s : string) : string :=
  String Py.dquote (s ++ String Py.dquote EmptyString).

(** The dictionary each function returns, the response an endpoint
    gives a request it serves, and the paths of the documentation
    routes. *)
Definition payload (f : Function) : Py.Value :=
  match f with
  | fn_read_root => get_payload
  | fn_create_root => post_payload
  end.

Definition endpoint_response (e : Endpoint) : Response :=
  match e with
  | APIRoute f => JSONResponse (payload f) 200
  | PlainRoute d => mkResponse 200 (Generated d)
  end.

(** The routes a fresh application object starts with. *)
Definition default_routes : list Route :=
  [ mkRoute "/openapi.json" {["GET"; "HEAD"]} (PlainRoute OpenAPISchema);
    mkRoute "/docs" {["GET"; "HEAD"]} (PlainRoute SwaggerUI);
    mkRoute "/docs/oauth2-redirect" {["GET"; "HEAD"]} (PlainRoute OAuth2Redirect);
    mkRoute "/redoc" {["GET"; "HEAD"]} (PlainRoute ReDoc) ].

Definition documentation_paths : list string :=
  ["/openapi.json"; "/docs"; "/docs/oauth2-redirect"; "/redoc"].

Definition matches_any (patterns : list string) (p : string) : bool :=
  existsb (fun q => path_regex_match q p) patterns.

(** The route runs the function [f]. *)
Definition runs (f : Function) (r : Route) : bool :=
  match endpoint r with
  | APIRoute g => bool_decide (g = f)
  | PlainRoute _ => false
  end.


(** [n] slashes. *)
Fixpoint slashes (n : nat) : string :=
  match n with
  | O => EmptyString
  | S n' => String "/" (slashes n')
  end.

(** The paths the service redirects: the empty path, and a path that a
    route matches, other than [/] itself, followed by one or more
    slashes. *)
Definition redirect_source (p : string) : Prop :=
  p = EmptyString \/
  exists q n,
    q <> "/" /\
    (path_regex_match "/" q = true \/ matches_any documentation_paths q = true) /\
    p = q ++ slashes (S n).

(** The path the router would redirect to is one a route of the service
    matches. *)
Definition redirected (p : string) : bool :=
  path_regex_match "/" (redirect_path p)
  || matches_any documentation_paths (redirect_path p).

(** * Properties *)

(** ** The handlers *)

Lemma read_root_returns (ns : Namespace) : read_root ns = (Returned get_payload, ns).
Proof. reflexivity. Qed.

Lemma create_root_returns (ns : Namespace) : create_root ns = (Returned post_payload, ns).
Proof. reflexivity. Qed.

Lemma run_endpoint_function_returns (f : Function) (ns : Namespace) :
  run_endpoint_function f [] ns
  = (Returned (match f with fn_read_root => get_payload | fn_create_root => post_payload end), ns).
Proof. destruct f; reflexivity. Qed.

(** Called with a keyword argument, either function raises. *)
Lemma run_endpoint_function_rejects_arguments
  (f : Function) (k : string) (v : Py.Value) values (ns : Namespace) :
  run_endpoint_function f ((k, v) :: values) ns
  = (Raised (TypeError (function_name f ++ "() got an unexpected keyword argument '"
                          ++ k ++ "'")), ns).
Proof. reflexivity. Qed.

Lemma solve_no_parameters (req : Request) : Framework.solve_dependencies [] req = ([], []).
Proof. reflexivity. Qed.

Lemma get_request_handler_returns (f : Function) (req : Request) (ns : Namespace) :
  get_request_handler f req ns
  = (Returned (JSONResponse
                 (match f with fn_read_root => get_payload | fn_create_root => post_payload end)
                 200), ns).
Proof. destruct f; reflexivity. Qed.

(** ** The namespace is a frame of every request *)

Lemma handle_frame (r : Route) (req : Request) (ns : Namespace) : (handle r req ns).2 = ns.
Proof.
  unfold handle.
  destruct (bool_decide (methods r ≠ ∅) && negb (bool_decide (method req ∈ methods r))).
  - reflexivity.
  - destruct (endpoint r) as [f|d].
    + now rewrite get_request_handler_returns.
    + reflexivity.
Qed.

Lemma router_frame (routes : list Route) (req : Request) (ns : Namespace) :
  (router routes req ns).2 = ns.
Proof.
  unfold router.
  destruct (find_route routes (method req) (url_path req) None) as [r|[r|]].
  - apply handle_frame.
  - apply handle_frame.
  - destruct (bool_decide (url_path req ≠ "/") && redirect_matches routes (method req) (url_path req));
      [destruct (Py.utf8_valid (query_string req))|]; reflexivity.
Qed.

Lemma app_frame (routes : list Route) (req : Request) (ns : Namespace) :
  (app routes req ns).2 = ns.
Proof.
  unfold app. pose proof (router_frame routes req ns) as H.
  destruct (router routes req ns) as [[response|e] ns']; exact H.
Qed.

(** ** The routing table of the service *)

Lemma main_returns : main ∅ = (Returned tt, service).
Proof. vm_compute. reflexivity. Qed.

Lemma service_app : service !! "app" = Some (Application routing_table).
Proof. vm_compute. reflexivity. Qed.

Lemma serve_service (req : Request) :
  serve req service = Some ((app routing_table req service).1, service).
Proof.
  unfold serve. rewrite service_app. f_equal.
  rewrite <- (app_frame routing_table req service) at 3.
  now destruct (app routing_table req service).
Qed.

(** ** Route matching *)

Lemma matches_other_path (r : Route) (m p : string) :
  path_regex_match (path r) p = false -> matches r m p = NONE.
Proof. unfold matches. now intros ->. Qed.

Lemma matches_not_none (r : Route) (m p : string) :
  matches r m p <> NONE -> path_regex_match (path r) p = true.
Proof.
  unfold matches. destruct (path_regex_match (path r) p); [reflexivity | congruence].
Qed.

(** With no route for the path the loop ends where it began. *)
Lemma find_route_unmatched (routes : list Route) (m p : string) (partial : option Route) :
  Forall (fun r => path_regex_match (path r) p = false) routes ->
  find_route routes m p partial = inr partial.
Proof.
  intros H. revert partial.
  induction H as [|r routes Hr _ IH]; intros partial; simpl.
  - reflexivity.
  - rewrite (matches_other_path _ _ _ Hr). apply IH.
Qed.

(** Whatever route the loop settles on, its path matches the request. *)
Lemma find_route_full (routes : list Route) (m p : string) (partial : option Route) (r : Route) :
  find_route routes m p partial = inl r -> r ∈ routes /\ matches r m p = FULL.
Proof.
  revert partial. induction routes as [|r0 routes IH]; intros partial; simpl.
  - discriminate.
  - destruct (matches r0 m p) eqn:E.
    + intros H. apply IH in H as [? ?]. split; [now right | assumption].
    + intros H. apply IH in H as [? ?]. split; [now right | assumption].
    + intros [= <-]. split; [now left | assumption].
Qed.

Lemma find_route_partial (routes : list Route) (m p : string) (r : Route) :
  find_route routes m p None = inr (Some r) -> r ∈ routes /\ matches r m p = PARTIAL.
Proof.
  assert (G : forall partial,
             find_route routes m p partial = inr (Some r) ->
             partial = Some r \/ (r ∈ routes /\ matches r m p = PARTIAL)).
  { induction routes as [|r0 routes IH]; intros partial; simpl.
    - intros [= ->]. now left.
    - destruct (matches r0 m p) eqn:E.
      + intros H. apply IH in H as [?|[? ?]]; [now left | right; split; [now right | assumption]].
      + intros H. apply IH in H as [H|[? ?]].
        * destruct partial as [r1|]; [now left|].
          injection H as <-. right. split; [now left | assumption].
        * right. split; [now right | assumption].
      + discriminate. }
  intros H. apply G in H as [?|?]; [discriminate | assumption].
Qed.

(** A partial match is answered with 405. *)
Lemma handle_partial (r : Route) (req : Request) (ns : Namespace) :
  matches r (method req) (url_path req) = PARTIAL ->
  handle r req ns = (Raised (HTTPException 405 "Method Not Allowed"), ns).
Proof.
  unfold matches, handle.
  destruct (path_regex_match (path r) (url_path req)); [|discriminate].
  destruct (bool_decide (methods r ≠ ∅) && negb (bool_decide (method req ∈ methods r)));
    [reflexivity | discriminate].
Qed.

Lemma root_matches_root : path_regex_match "/" "/" = true.
Proof. reflexivity. Qed.

Lemma find_route_cons (r : Route) (rest : list Route) (m p : string) (partial : option Route) :
  find_route (r :: rest) m p partial =
  match matches r m p with
  | FULL => inl r
  | PARTIAL => find_route rest m p (if partial is Some _ then partial else Some r)
  | NONE => find_route rest m p partial
  end.
Proof. reflexivity. Qed.

Lemma matches_method (r : Route) (m p : string) :
  path_regex_match (path r) p = true -> m ∈ methods r -> matches r m p = FULL.
Proof.
  intros Hp Hm. unfold matches. rewrite Hp.
  now rewrite (bool_decide_eq_true_2 _ Hm), andb_false_r.
Qed.

Lemma matches_other_method (r : Route) (m p : string) :
  path_regex_match (path r) p = true -> methods r <> ∅ -> m ∉ methods r ->
  matches r m p = PARTIAL.
Proof.
  intros Hp He Hm. unfold matches. rewrite Hp.
  now rewrite (bool_decide_eq_true_2 _ He), (bool_decide_eq_false_2 _ Hm).
Qed.

Ltac skip_route :=
  rewrite find_route_cons, matches_other_path by reflexivity.

Lemma find_route_root_get :
  find_route routing_table "GET" "/" None = inl (mkRoute "/" {["GET"]} (APIRoute fn_read_root)).
Proof.
  unfold routing_table. do 4 skip_route.
  rewrite find_route_cons, matches_method; [reflexivity | reflexivity | set_solver].
Qed.

Lemma find_route_root_post :
  find_route routing_table "POST" "/" None = inl (mkRoute "/" {["POST"]} (APIRoute fn_create_root)).
Proof.
  unfold routing_table. do 4 skip_route.
  rewrite find_route_cons, matches_other_method; [|reflexivity|set_solver|set_solver].
  rewrite find_route_cons, matches_method; [reflexivity | reflexivity | set_solver].
Qed.

Lemma find_route_root_other (m : string) :
  m <> "GET" -> m <> "POST" ->
  find_route routing_table m "/" None = inr (Some (mkRoute "/" {["GET"]} (APIRoute fn_read_root))).
Proof.
  intros Hg Hp. unfold routing_table. do 4 skip_route.
  rewrite find_route_cons, matches_other_method; [|reflexivity|set_solver|set_solver].
  rewrite find_route_cons, matches_other_method; [|reflexivity|set_solver|set_solver].
  reflexivity.
Qed.

Lemma path_regex_match_spec (pattern p : string) :
  path_regex_match pattern p = true <->
  p = pattern \/ p = pattern ++ String newline EmptyString.
Proof.
  unfold path_regex_match. rewrite orb_true_iff, !bool_decide_eq_true. reflexivity.
Qed.

(** ** What a request reads *)

(** On the root path the router looks at the method of a request and at
    nothing else. *)
Lemma router_inputs (routes : list Route) (req1 req2 : Request) (ns : Namespace) :
  method req1 = method req2 -> url_path req1 = "/" -> url_path req2 = "/" ->
  router routes req1 ns = router routes req2 ns.
Proof.
  intros Hm H1 H2. unfold router. rewrite Hm, H1, H2.
  assert (Hh : forall r, handle r req1 ns = handle r req2 ns).
  { intros r. unfold handle. rewrite Hm.
    destruct (bool_decide (methods r ≠ ∅) && negb (bool_decide (method req2 ∈ methods r)));
      [reflexivity|].
    destruct (endpoint r) as [f|d]; [|reflexivity].
    now rewrite !get_request_handler_returns. }
  destruct (find_route routes (method req2) "/" None) as [r|[r|]]; auto.
Qed.

Lemma app_inputs (routes : list Route) (req1 req2 : Request) (ns : Namespace) :
  method req1 = method req2 -> url_path req1 = "/" -> url_path req2 = "/" ->
  app routes req1 ns = app routes req2 ns.
Proof.
  intros Hm H1 H2. unfold app. now rewrite (router_inputs routes req1 req2 ns Hm H1 H2).
Qed.

(** ** Responses of the service *)

Lemma app_root_get (req : Request) :
  method req = "GET" -> url_path req = "/" ->
  app routing_table req service = (JSONResponse get_payload 200, service).
Proof.
  intros Hm Hp. unfold app, router. rewrite Hm, Hp, find_route_root_get.
  unfold handle. rewrite Hm. cbn [methods endpoint].
  rewrite (bool_decide_eq_true_2 ("GET" ∈ ({["GET"]} : gset string))) by set_solver.
  rewrite andb_false_r. now rewrite get_request_handler_returns.
Qed.

Lemma app_root_post (req : Request) :
  method req = "POST" -> url_path req = "/" ->
  app routing_table req service = (JSONResponse post_payload 200, service).
Proof.
  intros Hm Hp. unfold app, router. rewrite Hm, Hp, find_route_root_post.
  unfold handle. rewrite Hm. cbn [methods endpoint].
  rewrite (bool_decide_eq_true_2 ("POST" ∈ ({["POST"]} : gset string))) by set_solver.
  rewrite andb_false_r. now rewrite get_request_handler_returns.
Qed.

Lemma app_root_other (req : Request) :
  method req <> "GET" -> method req <> "POST" -> url_path req = "/" ->
  app routing_table req service
  = (JSONResponse (Py.Dict [("detail", Py.Str "Method Not Allowed")]) 405, service).
Proof.
  intros Hg Hq Hp. unfold app, router. rewrite Hp, (find_route_root_other _ Hg Hq).
  rewrite handle_partial; [reflexivity|].
  rewrite Hp. apply matches_other_method; [reflexivity| |]; cbn [methods]; set_solver.
Qed.

Lemma app_unmatched (req : Request) :
  Forall (fun r => path_regex_match (path r) (url_path req) = false) routing_table ->
  app routing_table req service
  = (if bool_decide (url_path req ≠ "/")
        && redirect_matches routing_table (method req) (url_path req)
     then if Py.utf8_valid (query_string req) then RedirectResponse
          else PlainTextResponse "Internal Server Error" 500
     else JSONResponse (Py.Dict [("detail", Py.Str "Not Found")]) 404,
     service).
Proof.
  intros H. unfold app, router. rewrite (find_route_unmatched _ _ _ None H).
  destruct (bool_decide (url_path req ≠ "/")
            && redirect_matches routing_table (method req) (url_path req));
    [destruct (Py.utf8_valid (query_string req))|]; reflexivity.
Qed.

Lemma serve_all_service (reqs : list Request) :
  serve_all reqs service
  = Some ((fun req => (app routing_table req service).1) <$> reqs, service).
Proof.
  induction reqs as [|req reqs IH]; simpl.
  - reflexivity.
  - now rewrite serve_service, IH.
Qed.

(** ** The router on any routing table *)

Lemma matches_full_iff (r : Route) (m p : string) :
  matches r m p = FULL <->
  path_regex_match (path r) p = true /\ (methods r = ∅ \/ m ∈ methods r).
Proof.
  unfold matches. destruct (path_regex_match (path r) p).
  - destruct (decide (methods r = ∅)) as [He|He], (decide (m ∈ methods r)) as [Hm|Hm].
    + rewrite (bool_decide_eq_true_2 _ Hm), andb_false_r. tauto.
    + rewrite (bool_decide_eq_false_2 (methods r ≠ ∅)) by tauto. cbn. tauto.
    + rewrite (bool_decide_eq_true_2 _ Hm), andb_false_r. tauto.
    + rewrite (bool_decide_eq_true_2 _ He), (bool_decide_eq_false_2 _ Hm). cbn.
      split; [discriminate | tauto].
  - split; [discriminate | intros [? _]; discriminate].
Qed.

Lemma matches_partial_iff (r : Route) (m p : string) :
  matches r m p = PARTIAL <->
  path_regex_match (path r) p = true /\ methods r <> ∅ /\ m ∉ methods r.
Proof.
  unfold matches. destruct (path_regex_match (path r) p).
  - destruct (decide (methods r = ∅)) as [He|He], (decide (m ∈ methods r)) as [Hm|Hm].
    + rewrite (bool_decide_eq_true_2 _ Hm), andb_false_r. split; [discriminate | tauto].
    + rewrite (bool_decide_eq_false_2 (methods r ≠ ∅)) by tauto. cbn.
      split; [discriminate | tauto].
    + rewrite (bool_decide_eq_true_2 _ Hm), andb_false_r. split; [discriminate | tauto].
    + rewrite (bool_decide_eq_true_2 _ He), (bool_decide_eq_false_2 _ Hm). cbn. tauto.
  - split; [discriminate | intros [? _]; discriminate].
Qed.

(** A full match is handed to the endpoint. *)
Lemma handle_full (r : Route) (req : Request) (ns : Namespace) :
  matches r (method req) (url_path req) = FULL ->
  handle r req ns = (Returned (endpoint_response (endpoint r)), ns).
Proof.
  unfold matches, handle.
  destruct (path_regex_match (path r) (url_path req)); [|discriminate].
  destruct (bool_decide (methods r ≠ ∅) && negb (bool_decide (method req ∈ methods r)));
    [discriminate|].
  intros _. destruct (endpoint r) as [f|d]; [|reflexivity].
  rewrite get_request_handler_returns. now destruct f.
Qed.

(** When the loop ends without a full match, no route matched fully. *)
Lemma find_route_inr_no_full (routes : list Route) (m p : string) (partial o : option Route) :
  find_route routes m p partial = inr o ->
  forall r, r ∈ routes -> matches r m p <> FULL.
Proof.
  revert partial. induction routes as [|r0 routes IH]; intros partial H r Hr.
  - now apply elem_of_nil in Hr.
  - rewrite find_route_cons in H. apply elem_of_cons in Hr as [-> | Hr].
    + destruct (matches r0 m p); [discriminate | discriminate | discriminate H].
    + destruct (matches r0 m p); [eauto | eauto | discriminate H].
Qed.

(** A remembered partial match is not forgotten. *)
Lemma find_route_keeps_partial (routes : list Route) (m p : string) (r' : Route) :
  find_route routes m p (Some r') <> inr None.
Proof.
  induction routes as [|a routes IH]; simpl.
  - discriminate.
  - destruct (matches a m p); [apply IH | apply IH | discriminate].
Qed.

(** When it ends with nothing remembered, no route matched at all. *)
Lemma find_route_inr_none (routes : list Route) (m p : string) (partial : option Route) :
  find_route routes m p partial = inr None ->
  forall r, r ∈ routes -> matches r m p = NONE.
Proof.
  revert partial. induction routes as [|r0 routes IH]; intros partial H r Hr.
  - now apply elem_of_nil in Hr.
  - rewrite find_route_cons in H. apply elem_of_cons in Hr as [-> | Hr].
    + destruct (matches r0 m p) eqn:E; [reflexivity | | discriminate H].
      exfalso. destruct partial as [r1|]; now apply find_route_keeps_partial in H.
    + destruct (matches r0 m p); [eauto | eauto | discriminate H].
Qed.

(** The three ways a request leaves the router: served by the first
    route that matches it fully; refused with 405 when routes match its
    path but none its method; redirected or not found when no route
    matches its path, the redirect failing on a query string that does
    not decode. *)
Lemma router_cases (routes : list Route) (req : Request) (ns : Namespace) :
  (exists r, r ∈ routes /\ matches r (method req) (url_path req) = FULL /\
             router routes req ns = (Returned (endpoint_response (endpoint r)), ns)) \/
  (exists r, r ∈ routes /\ matches r (method req) (url_path req) = PARTIAL /\
             (forall r', r' ∈ routes -> matches r' (method req) (url_path req) <> FULL) /\
             router routes req ns = (Raised (HTTPException 405 "Method Not Allowed"), ns)) \/
  ((forall r, r ∈ routes -> matches r (method req) (url_path req) = NONE) /\
   router routes req ns
   = (if bool_decide (url_path req ≠ "/")
         && redirect_matches routes (method req) (url_path req)
      then if Py.utf8_valid (query_string req) then Returned RedirectResponse
           else Raised UnicodeDecodeError
      else Raised (HTTPException 404 "Not Found"),
      ns)).
Proof.
  unfold router.
  destruct (find_route routes (method req) (url_path req) None) as [r|[r|]] eqn:E.
  - left. apply find_route_full in E as [Hr Hm]. exists r. auto using handle_full.
  - right; left. pose proof (find_route_inr_no_full _ _ _ _ _ E) as Hn.
    apply find_route_partial in E as [Hr Hm]. exists r. auto using handle_partial.
  - right; right. split; [exact (find_route_inr_none _ _ _ _ E)|].
    destruct (bool_decide (url_path req ≠ "/")
              && redirect_matches routes (method req) (url_path req));
      [destruct (Py.utf8_valid (query_string req))|]; reflexivity.
Qed.



(** The response of the application in each of the router's cases. *)
Lemma app_cases (routes : list Route) (req : Request) (ns : Namespace) :
  (exists r, r ∈ routes /\ matches r (method req) (url_path req) = FULL /\
             app routes req ns = (endpoint_response (endpoint r), ns)) \/
  (exists r, r ∈ routes /\ matches r (method req) (url_path req) = PARTIAL /\
             (forall r', r' ∈ routes -> matches r' (method req) (url_path req) <> FULL) /\
             app routes req ns
             = (JSONResponse (Py.Dict [("detail", Py.Str "Method Not Allowed")]) 405, ns)) \/
  ((forall r, r ∈ routes -> matches r (method req) (url_path req) = NONE) /\
   app routes req ns
   = (if bool_decide (url_path req ≠ "/")
         && redirect_matches routes (method req) (url_path req)
      then if Py.utf8_valid (query_string req) then RedirectResponse
           else PlainTextResponse "Internal Server Error" 500
      else JSONResponse (Py.Dict [("detail", Py.Str "Not Found")]) 404,
      ns)).
Proof.
  unfold app.
  destruct (router_cases routes req ns)
    as [(r & Hr & Hm & ->) | [(r & Hr & Hm & Hn & ->) | [Hn ->]]].
  - left. eauto.
  - right; left. exists r. auto.
  - right; right. split; [exact Hn|].
    destruct (bool_decide (url_path req ≠ "/")
              && redirect_matches routes (method req) (url_path req));
      [destruct (Py.utf8_valid (query_string req))|]; reflexivity.
Qed.

Lemma endpoint_response_status (e : Endpoint) : status_code (endpoint_response e) = 200.
Proof. now destruct e. Qed.

(** ** Loading the module *)

Lemma FastAPI_returns (ns : Namespace) :
  Framework.FastAPI ns = (Returned (Application default_routes), ns).
Proof. vm_compute. reflexivity. Qed.

Lemma store_name_returns (name : string) (o : Object) (ns : Namespace) :
  store_name name o ns = (Returned tt, <[name := o]> ns).
Proof. reflexivity. Qed.

Lemma api_route_returns (p m : string) (f : Function) (routes : list Route) (ns : Namespace) :
  ns !! "app" = Some (Application routes) ->
  Framework.api_route p [m] f ns
  = (Returned (FunctionObject f),
     <["app" := Application (routes ++ [mkRoute p {[Py.upper m]} (APIRoute f)])]> ns).
Proof.
  intros H. unfold Framework.api_route, Framework.new_APIRoute.
  unfold mbind, M_bind, load_name. rewrite H. cbn.
  unfold mret, M_ret, store_name. cbn.
  now rewrite (right_id_L ∅ (∪)).
Qed.

Lemma routing_table_built :
  ((default_routes ++ [mkRoute "/" {[Py.upper "GET"]} (APIRoute fn_read_root)])
     ++ [mkRoute "/" {[Py.upper "POST"]} (APIRoute fn_create_root)])%list
  = routing_table.
Proof. reflexivity. Qed.

Lemma load_name_returns (name : string) (o : Object) (ns : Namespace) :
  ns !! name = Some o -> load_name name ns = (Returned o, ns).
Proof. intros H. unfold load_name. now rewrite H. Qed.

Lemma get_returns (p : string) (f : Function) (routes : list Route) (ns : Namespace) :
  ns !! "app" = Some (Application routes) ->
  Framework.get p f ns = Framework.api_route p ["GET"] f ns.
Proof.
  intros H. unfold Framework.get, mbind, M_bind. now rewrite (load_name_returns _ _ _ H).
Qed.

(** Loaded into any namespace, the module binds [FastAPI], [app],
    [read_root] and [create_root] and nothing else. *)
Lemma main_state (ns : Namespace) :
  main ns
  = (Returned tt,
     <["create_root" := FunctionObject fn_create_root]>
       (<["read_root" := FunctionObject fn_read_root]>
          (<["app" := Application routing_table]>
             (<["FastAPI" := FastAPIClass]> ns)))).
Proof.
  unfold main, mbind, M_bind.
  rewrite store_name_returns.
  rewrite (load_name_returns "FastAPI" FastAPIClass) by apply lookup_insert_eq.
  cbn [call_object].
  rewrite FastAPI_returns, store_name_returns.
  rewrite (get_returns "/" fn_read_root default_routes) by apply lookup_insert_eq.
  rewrite (api_route_returns "/" "GET" fn_read_root default_routes)
    by apply lookup_insert_eq.
  rewrite store_name_returns.
  unfold Framework.post.
  rewrite (api_route_returns "/" "POST" fn_create_root
             (default_routes ++ [mkRoute "/" {[Py.upper "GET"]} (APIRoute fn_read_root)]))
    by (etransitivity; [apply lookup_insert_ne; discriminate | apply lookup_insert_eq]).
  rewrite store_name_returns, routing_table_built.
  f_equal. f_equal. unfold Namespace in *.
  rewrite insert_insert_eq.
  rewrite (insert_insert_ne _ "app" "read_root") by discriminate.
  now rewrite insert_insert_eq.
Qed.

(** ** The routes of the service, by path and method *)

Set Warnings "-clear-no-such-hyp".

Lemma root_not_documentation (p : string) :
  path_regex_match "/" p = true -> matches_any documentation_paths p = false.
Proof. intros H. apply path_regex_match_spec in H as [-> | ->]; reflexivity. Qed.

Lemma documentation_route (p : string) :
  matches_any documentation_paths p = true <->
  exists r, r ∈ default_routes /\ path_regex_match (path r) p = true.
Proof.
  change (matches_any documentation_paths p)
    with (existsb (fun r => path_regex_match (path r) p) default_routes).
  rewrite existsb_exists. now setoid_rewrite list_elem_of_In.
Qed.

Lemma routing_table_split (r : Route) :
  r ∈ routing_table <->
  r ∈ default_routes \/
  r = mkRoute "/" {["GET"]} (APIRoute fn_read_root) \/
  r = mkRoute "/" {["POST"]} (APIRoute fn_create_root).
Proof.
  change routing_table
    with (default_routes ++ [mkRoute "/" {["GET"]} (APIRoute fn_read_root);
                             mkRoute "/" {["POST"]} (APIRoute fn_create_root)])%list.
  rewrite elem_of_app, !elem_of_cons, elem_of_nil. tauto.
Qed.

Lemma default_route_methods (r : Route) :
  r ∈ default_routes -> methods r = {["GET"; "HEAD"]} /\ exists d, endpoint r = PlainRoute d.
Proof.
  unfold default_routes. intros Hr.
  repeat (apply elem_of_cons in Hr as [-> | Hr]); eauto.
  now apply elem_of_nil in Hr.
Qed.

(** Some route matches the request fully exactly when its path and
    method are served together. *)
Lemma full_match_iff (m p : string) :
  (exists r, r ∈ routing_table /\ matches r m p = FULL) <->
  (path_regex_match "/" p = true /\ (m = "GET" \/ m = "POST")) \/
  (matches_any documentation_paths p = true /\ (m = "GET" \/ m = "HEAD")).
Proof.
  split.
  - intros (r & Hr & Hf). apply matches_full_iff in Hf as [Hp Hm].
    apply routing_table_split in Hr as [Hr | [-> | ->]].
    + right. split; [apply documentation_route; eauto|].
      apply default_route_methods in Hr as [Hr _]. rewrite Hr in Hm. set_solver.
    + left. cbn [path methods] in *. split; [assumption | set_solver].
    + left. cbn [path methods] in *. split; [assumption | set_solver].
  - intros [[Hp Hm] | [Hp Hm]].
    + destruct Hm as [-> | ->].
      * exists (mkRoute "/" {["GET"]} (APIRoute fn_read_root)).
        split; [apply routing_table_split; auto|].
        apply matches_full_iff. cbn [path methods]. split; [assumption | set_solver].
      * exists (mkRoute "/" {["POST"]} (APIRoute fn_create_root)).
        split; [apply routing_table_split; auto|].
        apply matches_full_iff. cbn [path methods]. split; [assumption | set_solver].
    + apply documentation_route in Hp as (r & Hr & Hp). exists r.
      split; [apply routing_table_split; auto|].
      apply matches_full_iff. split; [assumption|].
      apply default_route_methods in Hr as [-> _]. set_solver.
Qed.

(** Some route matches the path of the request exactly when the path is
    the root or a documentation path. *)
Lemma path_match_iff (m p : string) :
  (exists r, r ∈ routing_table /\ matches r m p <> NONE) <->
  path_regex_match "/" p = true \/ matches_any documentation_paths p = true.
Proof.
  split.
  - intros (r & Hr & Hn). apply matches_not_none in Hn.
    apply routing_table_split in Hr as [Hr | [-> | ->]]; auto.
    right. apply documentation_route. eauto.
  - intros [Hp | Hp].
    + exists (mkRoute "/" {["GET"]} (APIRoute fn_read_root)).
      split; [apply routing_table_split; auto|].
      unfold matches. cbn [path]. rewrite Hp.
      destruct (_ && _); discriminate.
    + apply documentation_route in Hp as (r & Hr & Hp). exists r.
      split; [apply routing_table_split; auto|].
      unfold matches. rewrite Hp. destruct (_ && _); discriminate.
Qed.

Lemma redirect_matches_iff (m p : string) :
  redirect_matches routing_table m p = redirected p.
Proof.
  apply eq_true_iff_eq. unfold redirected. rewrite orb_true_iff.
  rewrite <- (path_match_iff m). unfold redirect_matches. rewrite existsb_exists.
  setoid_rewrite <- list_elem_of_In.
  split; intros (r & Hr & H); exists r; (split; [assumption|]);
    destruct (matches r m (redirect_path p)); congruence.
Qed.

(** Every request falls in one of three classes, by its path and method
    alone, and the class decides the response. *)
Lemma service_cases (req : Request) :
  (((path_regex_match "/" (url_path req) = true /\
     (method req = "GET" \/ method req = "POST")) \/
    (matches_any documentation_paths (url_path req) = true /\
     (method req = "GET" \/ method req = "HEAD"))) /\
   exists r, r ∈ routing_table /\ matches r (method req) (url_path req) = FULL /\
             app routing_table req service = (endpoint_response (endpoint r), service)) \/
  (((path_regex_match "/" (url_path req) = true /\
     method req <> "GET" /\ method req <> "POST") \/
    (matches_any documentation_paths (url_path req) = true /\
     method req <> "GET" /\ method req <> "HEAD")) /\
   app routing_table req service
   = (JSONResponse (Py.Dict [("detail", Py.Str "Method Not Allowed")]) 405, service)) \/
  ((path_regex_match "/" (url_path req) = false /\
    matches_any documentation_paths (url_path req) = false) /\
   app routing_table req service
   = (if redirected (url_path req)
      then if Py.utf8_valid (query_string req) then RedirectResponse
           else PlainTextResponse "Internal Server Error" 500
      else JSONResponse (Py.Dict [("detail", Py.Str "Not Found")]) 404,
      service)).
Proof.
  destruct (app_cases routing_table req service)
    as [(r & Hr & Hm & E) | [(r & Hr & Hm & Hn & E) | [Hn E]]].
  - left. split; [apply full_match_iff; eauto | eauto].
  - right; left. split; [|exact E].
    assert (Hf : ~ ((path_regex_match "/" (url_path req) = true /\
                     (method req = "GET" \/ method req = "POST")) \/
                    (matches_any documentation_paths (url_path req) = true /\
                     (method req = "GET" \/ method req = "HEAD")))).
    { intros H. apply full_match_iff in H as (r' & Hr' & Hf). now apply (Hn r'). }
    assert (Hp : path_regex_match "/" (url_path req) = true \/
                 matches_any documentation_paths (url_path req) = true).
    { apply (path_match_iff (method req)). exists r. split; [assumption | congruence]. }
    destruct Hp as [Hp | Hp]; [left | right]; (split; [assumption|]);
      split; intros Hx; apply Hf; tauto.
  - right; right.
    assert (Hp : ~ (path_regex_match "/" (url_path req) = true \/
                    matches_any documentation_paths (url_path req) = true)).
    { intros H. apply (path_match_iff (method req)) in H as (r & Hr & Hx).
      now apply Hx, Hn. }
    assert (H1 : path_regex_match "/" (url_path req) = false)
      by (destruct (path_regex_match "/" (url_path req)); tauto).
    assert (H2 : matches_any documentation_paths (url_path req) = false)
      by (destruct (matches_any documentation_paths (url_path req)); tauto).
    split; [auto|].
    assert (Hs : url_path req <> "/").
    { intros Hx. rewrite Hx in H1. discriminate H1. }
    rewrite E, (bool_decide_eq_true_2 _ Hs), andb_true_l.
    now rewrite redirect_matches_iff.
Qed.

(** No request is in the first class and in the second. *)
Lemma served_not_refused (m p : string) :
  (path_regex_match "/" p = true /\ (m = "GET" \/ m = "POST")) \/
  (matches_any documentation_paths p = true /\ (m = "GET" \/ m = "HEAD")) ->
  (path_regex_match "/" p = true /\ m <> "GET" /\ m <> "POST") \/
  (matches_any documentation_paths p = true /\ m <> "GET" /\ m <> "HEAD") ->
  False.
Proof.
  intros [[Hp Hm] | [Hp Hm]] [[Hq Hn] | [Hq Hn]];
    try (rewrite (root_not_documentation _ Hp) in Hq; discriminate);
    try (rewrite (root_not_documentation _ Hq) in Hp; discriminate);
    tauto.
Qed.

(** ** The attributes the application memoises *)



(** * The claims *)

(** C1: every GET request to the path [/], whatever its query (raw and
    parsed), headers and body, is answered with status 200 and the JSON object
    [{"method": "GET", "message": "Hello from GET!"}], sent as the text
    [{"method":"GET","message":"Hello from GET!"}]; the namespace of
    the service is as before. *)
Theorem get_root_response
  (qs : string) (q : list (string * string)) (h : list (string * string)) (b : string) :
  serve (mkRequest "GET" "/" qs q h b) service
  = Some (mkResponse 200
            (JSON (Py.Dict [("method", Py.Str "GET"); ("message", Py.Str "Hello from GET!")])),
          service)
  /\ render (JSON (Py.Dict [("method", Py.Str "GET"); ("message", Py.Str "Hello from GET!")]))
     = Some ("{" ++ quoted "method" ++ ":" ++ quoted "GET" ++ ","
                 ++ quoted "message" ++ ":" ++ quoted "Hello from GET!" ++ "}").
Proof.
  split; [|reflexivity].
  rewrite serve_service, app_root_get; reflexivity.
Qed.

(** C2: every POST request to the path [/], whatever its query (raw and
    parsed), headers and body, is answered with status 200 and the JSON object
    [{"method": "POST", "message": "Hello from POST!"}], sent as the
    text [{"method":"POST","message":"Hello from POST!"}]; the
    namespace of the service is as before. *)
Theorem post_root_response
  (qs : string) (q : list (string * string)) (h : list (string * string)) (b : string) :
  serve (mkRequest "POST" "/" qs q h b) service
  = Some (mkResponse 200
            (JSON (Py.Dict [("method", Py.Str "POST"); ("message", Py.Str "Hello from POST!")])),
          service)
  /\ render (JSON (Py.Dict [("method", Py.Str "POST"); ("message", Py.Str "Hello from POST!")]))
     = Some ("{" ++ quoted "method" ++ ":" ++ quoted "POST" ++ ","
                 ++ quoted "message" ++ ":" ++ quoted "Hello from POST!" ++ "}").
Proof.
  split; [|reflexivity].
  rewrite serve_service, app_root_post; reflexivity.
Qed.

(** C3: two requests to the path [/] with the same method get the same
    response, status and body, whatever their query parameters, headers
    and bodies are. *)
Theorem root_response_ignores_inputs (req1 req2 : Request) :
  url_path req1 = "/" -> url_path req2 = "/" -> method req1 = method req2 ->
  exists response,
    serve req1 service = Some (response, service) /\
    serve req2 service = Some (response, service).
Proof.
  intros H1 H2 Hm. exists (app routing_table req1 service).1.
  rewrite !serve_service. split; [reflexivity|].
  rewrite (app_inputs routing_table req1 req2); [reflexivity | assumption..].
Qed.

Lemma root_response_ignores_inputs_witness :
  exists response,
    serve (mkRequest "POST" "/" EmptyString [] [] EmptyString) service = Some (response, service) /\
    serve (mkRequest "POST" "/" "page=2" [("page", "2")] [("content-type", "text/plain")] "{oops")
          service = Some (response, service).
Proof.
  apply (root_response_ignores_inputs
           (mkRequest "POST" "/" EmptyString [] [] EmptyString)
           (mkRequest "POST" "/" "page=2" [("page", "2")] [("content-type", "text/plain")] "{oops"));
    reflexivity.
Defined.

(** C4: a request repeated any number of times, after any requests
    served before it, gets the same response each time: the one it gets
    from the freshly loaded service. *)
Theorem repeated_request_same_response (history : list Request) (req : Request) (n : nat) :
  exists response past,
    serve req service = Some (response, service) /\
    serve_all (history ++ replicate n req) service
    = Some ((past ++ replicate n response)%list, service).
Proof.
  exists (app routing_table req service).1,
         ((fun r => (app routing_table r service).1) <$> history).
  split; [apply serve_service|].
  now rewrite serve_all_service, fmap_app, fmap_replicate.
Qed.

(** C5: a request to the path [/] whose method is neither GET nor POST is
    answered with status 405, which is not a 2xx status. *)
Theorem other_method_on_root_refused (req : Request) :
  url_path req = "/" -> method req <> "GET" -> method req <> "POST" ->
  exists response,
    serve req service = Some (response, service) /\
    status_code response = 405 /\
    is_2xx (status_code response) = false.
Proof.
  intros Hp Hg Hq.
  exists (JSONResponse (Py.Dict [("detail", Py.Str "Method Not Allowed")]) 405).
  rewrite serve_service, app_root_other by assumption.
  repeat split.
Qed.

Lemma other_method_on_root_refused_witness :
  exists response,
    serve (mkRequest "DELETE" "/" EmptyString [] [] EmptyString) service = Some (response, service) /\
    status_code response = 405 /\
    is_2xx (status_code response) = false.
Proof.
  apply (other_method_on_root_refused (mkRequest "DELETE" "/" EmptyString [] [] EmptyString));
    [reflexivity | discriminate | discriminate].
Defined.

(** C6 as stated fails: the application object registers documentation
    routes of its own, and a GET request to [/docs], a path that is not
    [/], is answered with status 200. *)
Lemma docs_path_answered_200 :
  url_path (mkRequest "GET" "/docs" EmptyString [] [] EmptyString) <> "/" /\
  serve (mkRequest "GET" "/docs" EmptyString [] [] EmptyString) service
  = Some (mkResponse 200 (Generated SwaggerUI), service) /\
  is_2xx 200 = true.
Proof.
  split; [discriminate|]. split; [|reflexivity].
  rewrite serve_service. vm_compute. reflexivity.
Qed.

(** C6, amended: a request whose path the root route does not match
    gets a status that is not 2xx, whatever its method, unless a
    documentation route matches the path and the method is GET or HEAD. *)
Theorem off_root_not_2xx (req : Request) :
  path_regex_match "/" (url_path req) = false ->
  ~ (matches_any documentation_paths (url_path req) = true /\
     (method req = "GET" \/ method req = "HEAD")) ->
  exists response,
    serve req service = Some (response, service) /\
    is_2xx (status_code response) = false.
Proof.
  intros Hp Hd. exists (app routing_table req service).1.
  split; [apply serve_service|].
  destruct (service_cases req) as [[H _] | [[_ ->] | [_ ->]]].
  - exfalso. destruct H as [[H _] | H]; [congruence | tauto].
  - reflexivity.
  - cbn [fst].
    destruct (redirected (url_path req)); [destruct (Py.utf8_valid (query_string req))|];
      reflexivity.
Qed.

Lemma off_root_not_2xx_witness :
  (exists response,
     serve (mkRequest "GET" "/other" EmptyString [] [] EmptyString) service
     = Some (response, service) /\
     is_2xx (status_code response) = false) /\
  (exists response,
     serve (mkRequest "POST" "/docs" EmptyString [] [] EmptyString) service
     = Some (response, service) /\
     is_2xx (status_code response) = false).
Proof.
  split.
  - apply (off_root_not_2xx (mkRequest "GET" "/other" EmptyString [] [] EmptyString)).
    + reflexivity.
    + intros [H _]. vm_compute in H. discriminate H.
  - apply (off_root_not_2xx (mkRequest "POST" "/docs" EmptyString [] [] EmptyString)).
    + reflexivity.
    + intros [_ [H | H]]; discriminate H.
Defined.

(** C7: each of the two handlers, in every state, returns its constant
    dictionary and does not raise; so does the framework's call of
    either, which passes no argument, and the request handler built
    around it returns a response. *)
Theorem handlers_never_raise (ns : Namespace) :
  read_root ns
  = (Returned (Py.Dict [("method", Py.Str "GET"); ("message", Py.Str "Hello from GET!")]), ns) /\
  create_root ns
  = (Returned (Py.Dict [("method", Py.Str "POST"); ("message", Py.Str "Hello from POST!")]), ns) /\
  (forall f req,
     Framework.solve_dependencies (parameters f) req = ([], []) /\
     exists v, run_endpoint_function f [] ns = (Returned v, ns)) /\
  (forall f req, exists response, get_request_handler f req ns = (Returned response, ns)).
Proof.
  repeat split.
  - now destruct f.
  - rewrite run_endpoint_function_returns. eauto.
  - intros f req. rewrite get_request_handler_returns. eauto.
Qed.



(** C9: a POST request to [/] is answered with status 200 and the
    constant payload whatever its body is: create_root has no parameters,
    so solving them finds nothing to validate and reports no error, and
    the status is not 422. *)
Theorem post_root_accepts_any_body (req : Request) :
  method req = "POST" -> url_path req = "/" ->
  Framework.solve_dependencies (parameters fn_create_root) req = ([], []) /\
  exists response,
    serve req service = Some (response, service) /\
    status_code response = 200 /\
    status_code response <> 422 /\
    content response
    = JSON (Py.Dict [("method", Py.Str "POST"); ("message", Py.Str "Hello from POST!")]).
Proof.
  intros Hm Hp. split; [reflexivity|].
  exists (JSONResponse post_payload 200).
  rewrite serve_service, app_root_post by assumption.
  repeat split. discriminate.
Qed.

Lemma post_root_accepts_any_body_witness :
  Framework.solve_dependencies (parameters fn_create_root)
    (mkRequest "POST" "/" EmptyString [] [("content-type", "application/json")] "{not json") = ([], []) /\
  exists response,
    serve (mkRequest "POST" "/" EmptyString [] [("content-type", "application/json")] "{not json") service
    = Some (response, service) /\
    status_code response = 200 /\
    status_code response <> 422 /\
    content response
    = JSON (Py.Dict [("method", Py.Str "POST"); ("message", Py.Str "Hello from POST!")]).
Proof.
  apply (post_root_accepts_any_body
           (mkRequest "POST" "/" EmptyString [] [("content-type", "application/json")] "{not json"));
    reflexivity.
Defined.

(** C10: each of the two functions, called as the framework calls it,
    returns a dictionary whose keys are exactly [method] and [message];
    its [method] entry is GET for read_root and POST for create_root, and
    the service has exactly one route that runs the function: the one on
    the path [/] whose method set is that one method. *)
Theorem payload_names_registered_method (f : Function) (ns : Namespace) :
  exists items m,
    run_endpoint_function f [] ns = (Returned (Py.Dict items), ns) /\
    Py.dict_keys (Py.Dict items) = ["method"; "message"] /\
    Py.getitem (Py.Dict items) "method" = Some (Py.Str m) /\
    m = registered_method f /\
    m = match f with fn_read_root => "GET" | fn_create_root => "POST" end /\
    List.filter (runs f) (application_routes service) = [mkRoute "/" {[m]} (APIRoute f)].
Proof.
  unfold application_routes. rewrite service_app.
  destruct f; do 2 eexists; repeat split.
Qed.

(** * Properties of the module beyond the claims *)

(** X1: executed in any namespace, the module body returns without
    raising and leaves the namespace with [FastAPI] bound to the imported
    class, [app] to an application holding the six routes, [read_root]
    and [create_root] to the two functions themselves, and every other
    name as it was. *)
Theorem module_load_in_any_namespace (ns : Namespace) :
  main ns
  = (Returned tt,
     <["create_root" := FunctionObject fn_create_root]>
       (<["read_root" := FunctionObject fn_read_root]>
          (<["app" := Application routing_table]>
             (<["FastAPI" := FastAPIClass]> ns)))).
Proof. apply main_state. Qed.

(** X2: executing the module body a second time changes nothing: the
    application is created anew, so no route is registered twice. *)
Theorem module_reload_idempotent (ns : Namespace) :
  main (main ns).2 = main ns.
Proof.
  rewrite !main_state. cbn [snd]. f_equal. unfold Namespace in *.
  apply map_eq. intros i.
  destruct (decide (i = "create_root")) as [-> | H1];
    [now rewrite !lookup_insert_eq | rewrite !(lookup_insert_ne _ "create_root") by congruence].
  destruct (decide (i = "read_root")) as [-> | H2];
    [now rewrite !lookup_insert_eq | rewrite !(lookup_insert_ne _ "read_root") by congruence].
  destruct (decide (i = "app")) as [-> | H3];
    [now rewrite !lookup_insert_eq | rewrite !(lookup_insert_ne _ "app") by congruence].
  destruct (decide (i = "FastAPI")) as [-> | H4];
    [now rewrite !lookup_insert_eq | rewrite !(lookup_insert_ne _ "FastAPI") by congruence].
  now rewrite !lookup_insert_ne by congruence.
Qed.


(** X4: the service answers every request with one of the statuses 200,
    307, 404, 405 and 500, never with 422; it answers 500 only where it
    would redirect and the query string does not decode, and never when
    the query string decodes. *)
Theorem status_is_one_of_five (req : Request) :
  exists response,
    serve req service = Some (response, service) /\
    (status_code response = 200 \/ status_code response = 307 \/
     status_code response = 404 \/ status_code response = 405 \/
     (status_code response = 500 /\
      Py.utf8_valid (query_string req) = false /\
      path_regex_match "/" (url_path req) = false /\
      matches_any documentation_paths (url_path req) = false)).
Proof.
  exists (app routing_table req service).1. split; [apply serve_service|].
  destruct (service_cases req) as [[_ (r & _ & _ & ->)] | [[_ ->] | [[H1 H2] ->]]];
    cbn [fst]; rewrite ?endpoint_response_status; auto 10.
  destruct (redirected (url_path req));
    [destruct (Py.utf8_valid (query_string req)) eqn:E|];
    cbn [status_code RedirectResponse PlainTextResponse JSONResponse]; auto 10.
Qed.

(** X5: a request gets a 2xx status exactly when its path is the root and
    its method GET or POST, or its path is a documentation path and its
    method GET or HEAD. *)
Theorem success_iff_served (req : Request) :
  exists response,
    serve req service = Some (response, service) /\
    (is_2xx (status_code response) = true <->
     (path_regex_match "/" (url_path req) = true /\
      (method req = "GET" \/ method req = "POST")) \/
     (matches_any documentation_paths (url_path req) = true /\
      (method req = "GET" \/ method req = "HEAD"))).
Proof.
  exists (app routing_table req service).1. split; [apply serve_service|].
  destruct (service_cases req) as [[H (r & _ & _ & ->)] | [[H ->] | [[H1 H2] ->]]];
    cbn [fst]; rewrite ?endpoint_response_status;
    cbn [status_code JSONResponse RedirectResponse].
  - change (is_2xx 200) with true. tauto.
  - change (is_2xx 405) with false.
    split; [discriminate | intros H'; destruct (served_not_refused _ _ H' H)].
  - rewrite H1, H2.
    split; [|intros [[? _] | [? _]]; discriminate].
    destruct (redirected (url_path req)); [destruct (Py.utf8_valid (query_string req))|];
      discriminate.
Qed.

(** X6: a request gets status 405 exactly when its path is the root and
    its method neither GET nor POST, or its path is a documentation path
    and its method neither GET nor HEAD. *)
Theorem method_not_allowed_iff (req : Request) :
  exists response,
    serve req service = Some (response, service) /\
    (status_code response = 405 <->
     (path_regex_match "/" (url_path req) = true /\
      method req <> "GET" /\ method req <> "POST") \/
     (matches_any documentation_paths (url_path req) = true /\
      method req <> "GET" /\ method req <> "HEAD")).
Proof.
  exists (app routing_table req service).1. split; [apply serve_service|].
  destruct (service_cases req) as [[H (r & _ & _ & ->)] | [[H ->] | [[H1 H2] ->]]];
    cbn [fst]; rewrite ?endpoint_response_status;
    cbn [status_code JSONResponse RedirectResponse].
  - split; [discriminate | intros H'; destruct (served_not_refused _ _ H H')].
  - tauto.
  - rewrite H1, H2.
    split; [|intros [[? _] | [? _]]; discriminate].
    destruct (redirected (url_path req)); [destruct (Py.utf8_valid (query_string req))|];
      discriminate.
Qed.

(** X7: whenever the service answers a request with a JSON object that
    has a [method] entry, the entry is the method of that request: the
    GET payload goes to GET requests only, the POST payload to POST
    requests only, and no other response carries the entry. *)
Theorem payload_method_is_request_method
  (req : Request) (response : Response) (v : Py.Value) (m : string) :
  serve req service = Some (response, service) ->
  content response = JSON v ->
  Py.getitem v "method" = Some (Py.Str m) ->
  m = method req.
Proof.
  rewrite serve_service. intros [= <-] Hc Hg.
  destruct (service_cases req) as [[_ (r & Hr & Hf & E)] | [[_ E] | [_ E]]];
    rewrite E in Hc; cbn [fst] in Hc.
  - apply matches_full_iff in Hf as [_ Hm].
    apply routing_table_split in Hr as [Hr | [-> | ->]].
    + apply default_route_methods in Hr as [_ [d Hd]]. rewrite Hd in Hc. discriminate Hc.
    + cbn in Hc. injection Hc as <-. cbn in Hg. injection Hg as <-.
      cbn [methods] in Hm. set_solver.
    + cbn in Hc. injection Hc as <-. cbn in Hg. injection Hg as <-.
      cbn [methods] in Hm. set_solver.
  - cbn in Hc. injection Hc as <-. discriminate Hg.
  - destruct (redirected (url_path req)); [destruct (Py.utf8_valid (query_string req))|];
      try discriminate Hc.
    cbn in Hc. injection Hc as <-. discriminate Hg.
Qed.

Lemma payload_method_is_request_method_witness :
  "POST" = method (mkRequest "POST" "/" "q=1" [("q", "1")] [] "body").
Proof.
  apply (payload_method_is_request_method
           (mkRequest "POST" "/" "q=1" [("q", "1")] [] "body")
           (mkResponse 200 (JSON post_payload)) post_payload "POST");
    vm_compute; reflexivity.
Defined.

(** X8: registering a function for the root path and one method, a
    string of ASCII characters, on an application none of whose routes
    already serves that path and method, and then requesting the path
    with the method in upper case, gets the function's dictionary with
    status 200. *)
Theorem registered_route_is_served
  (ns : Namespace) (routes : list Route) (m : string) (f : Function) (req : Request) :
  Py.isascii m = true ->
  ns !! "app" = Some (Application routes) ->
  Forall (fun r => matches r (Py.upper m) "/" <> FULL) routes ->
  method req = Py.upper m ->
  url_path req = "/" ->
  exists ns',
    Framework.api_route "/" [m] f ns = (Returned (FunctionObject f), ns') /\
    serve req ns' = Some (JSONResponse (payload f) 200, ns').
Proof.
  intros _ Ha Hn Hm Hp.
  rewrite (api_route_returns "/" m f routes ns Ha).
  eexists. split; [reflexivity|].
  set (r := mkRoute "/" {[Py.upper m]} (APIRoute f)).
  set (ns' := <["app" := Application (routes ++ [r])]> ns).
  assert (H : ns' !! "app" = Some (Application (routes ++ [r]))).
  { subst ns'. unfold Namespace. apply lookup_insert_eq. }
  assert (Hf : matches r (method req) (url_path req) = FULL).
  { rewrite Hm, Hp. apply matches_full_iff. subst r. cbn [path methods].
    split; [reflexivity | set_solver]. }
  unfold serve. rewrite H. f_equal.
  destruct (app_cases (routes ++ [r]) req ns')
    as [(r' & Hr & Hf' & E) | [(r' & _ & _ & Hx & _) | [Hx _]]].
  - rewrite E. apply elem_of_app in Hr as [Hr | Hr].
    + rewrite Forall_forall in Hn. rewrite Hm, Hp in Hf'. now apply Hn in Hr.
    + apply list_elem_of_singleton in Hr as ->. reflexivity.
  - exfalso. apply (Hx r); [|exact Hf]. apply elem_of_app. right. now left.
  - exfalso. rewrite (Hx r) in Hf; [discriminate|]. apply elem_of_app. right. now left.
Qed.

Lemma registered_route_is_served_witness :
  exists ns',
    Framework.api_route "/" ["put"] fn_create_root
      (<["app" := Application default_routes]> ∅)
    = (Returned (FunctionObject fn_create_root), ns') /\
    serve (mkRequest "PUT" "/" EmptyString [] [] EmptyString) ns'
    = Some (JSONResponse (payload fn_create_root) 200, ns').
Proof.
  apply (registered_route_is_served
           (<["app" := Application default_routes]> ∅) default_routes "put" fn_create_root
           (mkRequest "PUT" "/" EmptyString [] [] EmptyString)).
  - reflexivity.
  - reflexivity.
  - unfold default_routes. repeat constructor; vm_compute; discriminate.
  - reflexivity.
  - reflexivity.
Defined.

(** X9: whenever the service answers a request with a JSON object that
    has a [message] entry, the entry greets from the method of that
    request. *)
Theorem payload_message_names_request_method
  (req : Request) (response : Response) (v : Py.Value) (s : string) :
  serve req service = Some (response, service) ->
  content response = JSON v ->
  Py.getitem v "message" = Some (Py.Str s) ->
  s = "Hello from " ++ method req ++ "!".
Proof.
  rewrite serve_service. intros [= <-] Hc Hg.
  destruct (service_cases req) as [[_ (r & Hr & Hf & E)] | [[_ E] | [_ E]]];
    rewrite E in Hc; cbn [fst] in Hc.
  - apply matches_full_iff in Hf as [_ Hm].
    apply routing_table_split in Hr as [Hr | [-> | ->]].
    + apply default_route_methods in Hr as [_ [d Hd]]. rewrite Hd in Hc. discriminate Hc.
    + cbn in Hc. injection Hc as <-. cbn in Hg. injection Hg as <-.
      cbn [methods] in Hm.
      assert (Hx : method req = "GET") by set_solver. now rewrite Hx.
    + cbn in Hc. injection Hc as <-. cbn in Hg. injection Hg as <-.
      cbn [methods] in Hm.
      assert (Hx : method req = "POST") by set_solver. now rewrite Hx.
  - cbn in Hc. injection Hc as <-. discriminate Hg.
  - destruct (redirected (url_path req)); [destruct (Py.utf8_valid (query_string req))|];
      try discriminate Hc.
    cbn in Hc. injection Hc as <-. discriminate Hg.
Qed.

Lemma payload_message_names_request_method_witness :
  "Hello from GET!" = "Hello from " ++ method (mkRequest "GET" "/" EmptyString [] [] EmptyString) ++ "!".
Proof.
  apply (payload_message_names_request_method
           (mkRequest "GET" "/" EmptyString [] [] EmptyString)
           (mkResponse 200 (JSON get_payload)) get_payload "Hello from GET!");
    vm_compute; reflexivity.
Defined.

(** ** Trailing slashes *)

Lemma rstrip_slashes (n : nat) : Py.rstrip_slash (slashes n) = EmptyString.
Proof. induction n as [|n IH]; [reflexivity|]. cbn. now rewrite IH. Qed.

Lemma endswith_slashes (n : nat) : Py.endswith_slash (slashes (S n)) = true.
Proof.
  induction n as [|n IH]; [reflexivity|].
  change (slashes (S (S n))) with (String "/" (slashes (S n))).
  change (slashes (S n)) with (String "/" (slashes n)) in *. exact IH.
Qed.

(** A string is what [rstrip] leaves of it, followed by slashes. *)
Lemma rstrip_slash_split (p : string) :
  exists n, p = Py.rstrip_slash p ++ slashes n.
Proof.
  induction p as [|c p [n IH]].
  - now exists O.
  - cbn [Py.rstrip_slash]. destruct (Py.rstrip_slash p) as [|a t] eqn:E.
    + cbn in IH. destruct (decide (c = "/"%char)) as [-> | Hc].
      * exists (S n). now rewrite IH.
      * exists n. now rewrite IH.
    + exists n. now rewrite IH at 1.
Qed.

Lemma rstrip_slash_not_ended (p : string) :
  Py.endswith_slash (Py.rstrip_slash p) = false.
Proof.
  induction p as [|c p IH]; [reflexivity|].
  cbn [Py.rstrip_slash]. destruct (Py.rstrip_slash p) as [|a t] eqn:E.
  - destruct (decide (c = "/"%char)) as [-> | Hc]; [reflexivity|].
    cbn. now apply bool_decide_eq_false_2.
  - exact IH.
Qed.

Lemma rstrip_slash_cons (c : ascii) (s : string) :
  Py.rstrip_slash (String c s)
  = match Py.rstrip_slash s with
    | EmptyString => if decide (c = "/"%char) then EmptyString else String c EmptyString
    | t => String c t
    end.
Proof. reflexivity. Qed.

Lemma rstrip_slash_append (q : string) (n : nat) :
  Py.endswith_slash q = false -> Py.rstrip_slash (q ++ slashes n) = q.
Proof.
  induction q as [|c q IH]; intros H.
  - apply rstrip_slashes.
  - change (String c q ++ slashes n) with (String c (q ++ slashes n)).
    rewrite rstrip_slash_cons. destruct q as [|a t].
    + cbn in H. apply bool_decide_eq_false_1 in H.
      change (EmptyString ++ slashes n) with (slashes n).
      rewrite rstrip_slashes. now destruct (decide (c = "/"%char)).
    + rewrite IH by exact H. reflexivity.
Qed.

Lemma endswith_slash_append (q : string) (n : nat) :
  Py.endswith_slash (q ++ slashes (S n)) = true.
Proof.
  induction q as [|c q IH]; [apply endswith_slashes|].
  cbn [append]. destruct q as [|a t]; exact IH.
Qed.

Lemma endswith_slash_snoc (p : string) : Py.endswith_slash (p ++ "/") = true.
Proof. apply (endswith_slash_append p 0). Qed.

Lemma append_empty (s : string) : s ++ EmptyString = s.
Proof.
  induction s as [|c s IH]; [reflexivity|].
  change (String c s ++ EmptyString) with (String c (s ++ EmptyString)). now f_equal.
Qed.

(** No path that a route matches ends with a slash, but [/] itself. *)
Lemma matched_not_ended (q : string) :
  path_regex_match "/" q = true \/ matches_any documentation_paths q = true ->
  q = "/" \/ Py.endswith_slash q = false.
Proof.
  intros [H | H].
  - apply path_regex_match_spec in H as [-> | ->]; auto.
  - unfold matches_any, documentation_paths in H. cbn [existsb] in H.
    rewrite !orb_true_iff in H.
    destruct H as [H | [H | [H | [H | H]]]]; [| | | | discriminate H];
      apply path_regex_match_spec in H as [-> | ->]; auto.
Qed.

(** The paths the router redirects, without reference to how it finds
    the path to redirect to. *)
Lemma redirected_iff (p : string) : redirected p = true <-> redirect_source p.
Proof.
  unfold redirected, redirect_source, redirect_path. rewrite orb_true_iff. split.
  - destruct (Py.endswith_slash p) eqn:E; intros H.
    + right. destruct (rstrip_slash_split p) as [n Hn].
      exists (Py.rstrip_slash p). destruct n as [|n].
      * exfalso. change (slashes 0) with EmptyString in Hn.
        rewrite append_empty in Hn.
        pose proof (rstrip_slash_not_ended p) as Hx. rewrite <- Hn in Hx. congruence.
      * exists n. split; [|split; [exact H | exact Hn]].
        intros Hq. pose proof (rstrip_slash_not_ended p) as Hx. rewrite Hq in Hx.
        discriminate Hx.
    + left. apply matched_not_ended in H as [H | H].
      * destruct p as [|c [|a t]]; [reflexivity | discriminate H | discriminate H].
      * rewrite endswith_slash_snoc in H. discriminate H.
  - intros [-> | (q & n & Hq & Hm & ->)]; [left; reflexivity|].
    rewrite endswith_slash_append.
    destruct (matched_not_ended q Hm) as [? | He]; [contradiction|].
    now rewrite rstrip_slash_append, <- orb_true_iff, orb_true_iff.
Qed.

Lemma redirect_source_unmatched (p : string) :
  redirect_source p ->
  path_regex_match "/" p = false /\ matches_any documentation_paths p = false.
Proof.
  intros [-> | (q & n & Hq & Hm & ->)]; [split; reflexivity|].
  assert (H : ~ (path_regex_match "/" (q ++ slashes (S n)) = true \/
                 matches_any documentation_paths (q ++ slashes (S n)) = true)).
  { intros H. apply matched_not_ended in H as [H | H].
    - destruct q as [|c q].
      + destruct Hm as [Hm | Hm]; discriminate Hm.
      + injection H as _ H. destruct q; discriminate H.
    - rewrite endswith_slash_append in H. discriminate H. }
  destruct (path_regex_match "/" (q ++ slashes (S n))),
           (matches_any documentation_paths (q ++ slashes (S n))); tauto.
Qed.

(** X10: a request gets status 307 exactly when its path is the empty
    path or a path some route matches, other than [/], followed by one or
    more slashes, and its query string decodes; 500 exactly when its path
    is such a path and its query string does not decode; 404 exactly when
    no route matches its path and the path is not such a path. *)
Theorem redirect_and_not_found_iff (req : Request) :
  exists response,
    serve req service = Some (response, service) /\
    (status_code response = 307 <->
     redirect_source (url_path req) /\ Py.utf8_valid (query_string req) = true) /\
    (status_code response = 500 <->
     redirect_source (url_path req) /\ Py.utf8_valid (query_string req) = false) /\
    (status_code response = 404 <->
     path_regex_match "/" (url_path req) = false /\
     matches_any documentation_paths (url_path req) = false /\
     ~ redirect_source (url_path req)).
Proof.
  exists (app routing_table req service).1. split; [apply serve_service|].
  pose proof (redirect_source_unmatched (url_path req)) as Hu.
  pose proof (redirected_iff (url_path req)) as Hr.
  destruct (service_cases req) as [[H (r & _ & _ & ->)] | [[H ->] | [[H1 H2] ->]]];
    cbn [fst]; rewrite ?endpoint_response_status;
    cbn [status_code JSONResponse RedirectResponse].
  - assert (Hn : ~ redirect_source (url_path req)).
    { intros Hs. apply Hu in Hs as [G1 G2]. rewrite G1, G2 in H.
      destruct H as [[? _] | [? _]]; discriminate. }
    repeat split; try discriminate; try tauto.
    intros (G1 & G2 & _). rewrite G1, G2 in H. destruct H as [[? _] | [? _]]; discriminate.
  - assert (Hn : ~ redirect_source (url_path req)).
    { intros Hs. apply Hu in Hs as [G1 G2]. rewrite G1, G2 in H.
      destruct H as [[? _] | [? _]]; discriminate. }
    repeat split; try discriminate; try tauto.
    intros (G1 & G2 & _). rewrite G1, G2 in H. destruct H as [[? _] | [? _]]; discriminate.
  - destruct (redirected (url_path req)).
    + assert (Hs : redirect_source (url_path req)) by now apply Hr.
      destruct (Py.utf8_valid (query_string req));
        cbn [status_code RedirectResponse PlainTextResponse];
        repeat split; try discriminate; try tauto; intros [_ ?]; discriminate.
    + assert (Hs : ~ redirect_source (url_path req)).
      { intros Hs. apply Hr in Hs. discriminate Hs. }
      repeat split; try discriminate; try tauto.
Qed.
